(** * Verification of [airflow/utils/serve_logs.py]

    The log server of an Airflow worker: a Flask application with one
    route, [/log/<path:filename>], guarded by a [before_request] hook
    that validates a pre-signed token, and a Gunicorn launcher.

    The Python code is embedded shallowly.  Computations that may raise
    live in the error monad [result]; dictionaries are [gmap]s; Python
    integers are [Z].  Everything the module imports and does not define
    (the [itsdangerous] signer, the builtin [int] on strings and
    [str.lower], Flask's [send_from_directory], Werkzeug's URL matching,
    Gunicorn's [cfg.set], Airflow's [conf], [os.path.expanduser]) is a
    [Variable] of the section that uses it.  Of Flask itself the file
    models the two decorators that the module uses and the order in
    which a request is dispatched over what they registered. *)

From Stdlib Require Import ZArith Lia String Ascii List SpecFloat.
From stdpp Require Import base option strings gmap pretty.

Open Scope string_scope.
Open Scope Z_scope.

(** ** Python exceptions and the error monad *)

(** The exception classes that the module, or a library it calls, can
    raise.  [KeyboardInterrupt] and [SystemExit] derive from
    [BaseException] only: an [except Exception] clause does not catch
    them.  [HTTPException code] is what [flask.abort code] raises. *)
Inductive exn : Type :=
  | KeyError
  | TypeError
  | ValueError
  | OverflowError
  | BadSignature
  | BadPayload
  | BadHeader
  | SignatureExpired
  | AirflowConfigException
  | AttributeError
  | HTTPException (code : Z)
  | KeyboardInterrupt
  | SystemExit.

Definition is_Exception (e : exn) : bool :=
  match e with
  | KeyboardInterrupt | SystemExit => false
  | _ => true
  end.

Inductive result (A : Type) : Type :=
  | Ok (a : A)
  | Raise (e : exn).
Arguments Ok {A} a.
Arguments Raise {A} e.

#[global] Instance result_ret : MRet result := fun _ a => Ok a.
#[global] Instance result_bind : MBind result := fun _ _ f r =>
  match r with
  | Ok a => f a
  | Raise e => Raise e
  end.

(** [try: body except Exception: handler] *)
Definition try_except_Exception {A} (body : result A) (handler : result A)
  : result A :=
  match body with
  | Ok a => Ok a
  | Raise e => if is_Exception e then handler else Raise e
  end.

(** [if cond: stmt] for a statement that returns nothing. *)
Definition py_if (cond : bool) (stmt : result unit) : result unit :=
  if cond then stmt else Ok tt.

(** [flask.abort(code)] *)
Definition abort {A} (code : Z) : result A := Raise (HTTPException code).

(** [d[k]] on a dictionary. *)
Definition getitem {V} (d : gmap string V) (k : string) : result V :=
  match d !! k with
  | Some v => Ok v
  | None => Raise KeyError
  end.

(** [d[k]] when [d] may be [None], as [request.view_args] is when no URL
    rule matched: subscripting [None] raises [TypeError]. *)
Definition getitem_opt {V} (d : option (gmap string V)) (k : string)
  : result V :=
  match d with
  | Some d => getitem d k
  | None => Raise TypeError
  end.

(** ** JSON values and the builtin [int] *)

(** What [json.loads] produces: the payload and the header fields of a
    token are of this type. *)
#[warnings="-register-all"]
Inductive json : Type :=
  | JNull
  | JBool (b : bool)
  | JInt (z : Z)
  | JFloat (f : spec_float)
  | JStr (s : string)
  | JList (l : list json)
  | JDict (d : list (string * json)).

(** [int(x)] on a float truncates toward zero; infinities raise
    [OverflowError] and NaN raises [ValueError]. *)
Definition int_of_float (f : spec_float) : result Z :=
  match f with
  | S754_zero _ => Ok 0
  | S754_infinity _ => Raise OverflowError
  | S754_nan => Raise ValueError
  | S754_finite s m e =>
      let mag := if bool_decide (0 ≤ e) then Z.shiftl (Z.pos m) e
                 else Z.shiftr (Z.pos m) (- e) in
      Ok (if s then - mag else mag)
  end.

(** [a != b] where [b] is a [str]: only an equal [str] compares equal. *)
Definition ne_str (a : json) (b : string) : bool :=
  match a with
  | JStr s => bool_decide (s ≠ b)
  | _ => true
  end.

(** ** The application *)

(** The arguments [create_app] gives to [TimedJSONWebSignatureSerializer]. *)
Record Signer : Type := {
  secret_key : string;
  algorithm_name : string;
  expires_in : Z;
  salt : string;
}.

(** The variables that the closures of [create_app] capture. *)
Record App : Type := {
  max_request_age : Z;
  log_directory : string;
  signer : Signer;
}.

(** Flask's [request], after URL matching: [view_args] is [None] when no
    rule matched the URL. *)
Record Request : Type := {
  headers : gmap string string;
  endpoint : option string;
  view_args : option (gmap string string);
}.

Section Authorization.

(** [signer.loads(s, return_header=True)], where the third argument is
    the reading of the clock that the signer takes for itself.  It
    returns the payload and the header, or raises. *)
Variable loads : Signer → string → Z → result (json * gmap string json).

(** The builtin [int] on a [str]; [None] stands for [ValueError]. *)
Variable int_of_str : string → option Z.

Definition py_int (x : json) : result Z :=
  match x with
  | JInt z => Ok z
  | JBool b => Ok (if b then 1 else 0)
  | JFloat f => int_of_float f
  | JStr s => match int_of_str s with
              | Some z => Ok z
              | None => Raise ValueError
              end
  | JNull | JList _ | JDict _ => Raise TypeError
  end.

(** The body of the [try] block, lines 47 to 54. *)
Definition decode (app : App) (request : Request) (t : Z)
  : result (json * Z * Z) :=
  auth ← getitem (headers request) "Authorization";
  '(filename, hdrs) ← loads (signer app) auth t;
  iat ← getitem hdrs "iat";
  issued_at ← py_int iat;
  exp ← getitem hdrs "exp";
  expires_at ← py_int exp;
  Ok (filename, issued_at, expires_at).

(** The [before_request] hook.  [t] is the clock as the signer reads it
    inside [loads], [now] is [int(time.time())] of line 62.  [Ok tt] is
    the normal return, after which Flask calls the view. *)
Definition validate_pre_signed_url (app : App) (request : Request)
    (t now : Z) : result unit :=
  '(filename, issued_at, expires_at) ←
    try_except_Exception (decode app request t) (abort 403);
  requested ← getitem_opt (view_args request) "filename";
  py_if (ne_str filename requested) (abort 403);;
  py_if (bool_decide (Z.abs (now - issued_at) > max_request_age app))
    (abort 403);;
  py_if (bool_decide (Z.abs (now - expires_at) > max_request_age app))
    (abort 403);;
  py_if (bool_decide (issued_at > expires_at)
         || bool_decide (expires_at - issued_at > max_request_age app))
    (abort 403).

End Authorization.

(** ** Requests and responses *)

(** What the WSGI server hands over: the method, the path of the URL
    and the HTTP headers. *)
Record Environ : Type := {
  REQUEST_METHOD : string;
  PATH_INFO : string;
  HTTP_HEADERS : gmap string string;
}.

(** What the file responder returns. *)
Record FileResponse : Type := {
  file_status : Z;
  file_mimetype : string;
  file_data : string;
}.

(** A response is either the responder's, or the generic page that
    Werkzeug renders for an HTTP error code. *)
Inductive Response : Type :=
  | Served (r : FileResponse)
  | ErrorPage (code : Z).

Definition status_code (r : Response) : Z :=
  match r with
  | Served r => file_status r
  | ErrorPage code => code
  end.

(** The observable steps of one request, in the order they happen: a
    [before_request] function has been called and has returned or
    raised [rv]; [send_from_directory] has been called on these
    arguments. *)
Inductive event : Type :=
  | BeforeRequest (rv : result unit)
  | SendFromDirectory (directory filename : string).

(** A computation that leaves a trace of events.  Sequencing appends
    the traces, and nothing runs after a [Raise]. *)
Definition traced (A : Type) : Type := list event * result A.

Definition tbind {A B} (m : traced A) (k : A → traced B) : traced B :=
  match m with
  | (trace, Ok a) => let '(trace', r) := k a in ((trace ++ trace')%list, r)
  | (trace, Raise e) => (trace, Raise e)
  end.

(** [handle_user_exception] and [handle_exception]: an [HTTPException]
    becomes its own page, any other [Exception] becomes a 500, and what
    is not an [Exception] leaves the application. *)
Definition handle_user_exception (e : exn) : result Response :=
  match e with
  | HTTPException code => Ok (ErrorPage code)
  | _ => if is_Exception e then Ok (ErrorPage 500) else Raise e
  end.

Definition finalize (rv : result FileResponse) : result Response :=
  match rv with
  | Ok r => Ok (Served r)
  | Raise e => handle_user_exception e
  end.

(** ** The Flask object

    What the module uses of [flask.Flask]: the two decorators and the
    dispatch of a request over whatever they registered. *)
Module Flask.

(** A [before_request] function, given the request and the two readings
    of the clock; a view function, called with the view arguments as
    keyword arguments. *)
Definition hook : Type := Request → Z → Z → result unit.
Definition view : Type := option (gmap string string) → traced FileResponse.

Record app : Type := {
  before_request_funcs : list hook;
  url_map : list (string * string);
  view_functions : gmap string view;
}.

(** [Flask(__name__, static_folder=None)]: no hook and, without a
    static folder, no rule. *)
Definition new : app :=
  {| before_request_funcs := []; url_map := []; view_functions := ∅ |}.

(** [@app.before_request] *)
Definition before_request (f : hook) (a : app) : app :=
  {| before_request_funcs := (before_request_funcs a ++ [f])%list;
     url_map := url_map a;
     view_functions := view_functions a |}.

(** [@app.route(rule)] on a function named [endpoint] *)
Definition route (rule endpoint : string) (f : view) (a : app) : app :=
  {| before_request_funcs := before_request_funcs a;
     url_map := (url_map a ++ [(rule, endpoint)])%list;
     view_functions := <[endpoint := f]> (view_functions a) |}.

(** [preprocess_request]: the [before_request] functions are called in
    the order of their registration, until one raises. *)
Fixpoint preprocess_request (funcs : list hook) (request : Request)
    (t now : Z) : traced unit :=
  match funcs with
  | [] => ([], Ok tt)
  | f :: funcs =>
      tbind (let rv := f request t now in ([BeforeRequest rv], rv))
            (λ _, preprocess_request funcs request t now)
  end.

(** [dispatch_request]: raise the routing exception if no rule
    matched, else call the view function of the endpoint on the view
    arguments.  (The answer that Flask gives by itself to the method
    [OPTIONS] is left out: the route of the module serves [GET].) *)
Definition dispatch_request (a : app) (request : Request)
  : traced FileResponse :=
  match endpoint request with
  | None => ([], Raise (HTTPException 404))
  | Some ep =>
      match view_functions a !! ep with
      | Some f => f (view_args request)
      | None => ([], Raise KeyError)
      end
  end.

(** [full_dispatch_request]: the view is dispatched only when
    [preprocess_request] has returned. *)
Definition full_dispatch_request (a : app) (request : Request) (t now : Z)
  : list event * result Response :=
  let '(trace, rv) :=
    tbind (preprocess_request (before_request_funcs a) request t now)
          (λ _, dispatch_request a request) in
  (trace, finalize rv).

End Flask.

Section Dispatch.

Variable loads : Signer → string → Z → result (json * gmap string json).
Variable int_of_str : string → option Z.

(** [flask.send_from_directory(directory, filename, mimetype=...,
    as_attachment=...)]. *)
Variable send_from_directory :
  string → string → string → bool → result FileResponse.

(** Werkzeug's URL matching over the rules of the application, as
    Flask runs it when the request context is pushed: it fills
    [endpoint] and [view_args], and leaves both [None] when no rule
    matches the path and the method. *)
Variable match_request : Environ → Request.

(** The call of the responder, which leaves its arguments in the
    trace. *)
Definition call_send_from_directory (directory filename mimetype : string)
    (as_attachment : bool) : traced FileResponse :=
  ([SendFromDirectory directory filename],
   send_from_directory directory filename mimetype as_attachment).

Definition serve_logs_view (app : App) (filename : string)
  : traced FileResponse :=
  call_send_from_directory (log_directory app) filename
    "application/json" false.

(** [serve_logs_view] called with the view arguments as keywords. *)
Definition serve_logs_view_kwargs (app : App)
    (kwargs : option (gmap string string)) : traced FileResponse :=
  match getitem_opt kwargs "filename" with
  | Ok filename => serve_logs_view app filename
  | Raise _ => ([], Raise TypeError)
  end.

(** The object [flask_app] of [create_app], over the variables [app]
    that its closures capture: line 31, then the decorator of line 44,
    then the decorator of line 70. *)
Definition flask_app (app : App) : Flask.app :=
  Flask.route "/log/<path:filename>" "serve_logs_view"
    (serve_logs_view_kwargs app)
    (Flask.before_request (validate_pre_signed_url loads int_of_str app)
       Flask.new).

Definition full_dispatch_request (app : App) (request : Request)
    (t now : Z) : list event * result Response :=
  Flask.full_dispatch_request (flask_app app) request t now.

Definition flask_wsgi_app (app : App) (environ : Environ) (t now : Z)
  : list event * result Response :=
  full_dispatch_request app (match_request environ) t now.

End Dispatch.

(** ** The launcher *)

(** A value of the [options] dictionary. *)
Inductive setting : Type :=
  | SStr (s : string)
  | SInt (z : Z).

Record StandaloneGunicornApplication : Type := {
  options : list (string * setting);
  application : App;
}.

(** [__init__]: [self.options = options or {}]. *)
Definition StandaloneGunicornApplication_init (app : App)
    (opts : option (list (string * setting)))
  : StandaloneGunicornApplication :=
  {| options := default [] opts; application := app |}.

Section Gunicorn.

(** The configuration object of Gunicorn, [self.cfg]. *)
Variable Config : Type.

(** [cfg.set(name, value)]: the configuration with that setting
    changed.  It raises when [name] is not a setting of Gunicorn or
    [value] is not valid for it. *)
Variable cfg_set : Config → string → setting → result Config.

(** [str.lower] *)
Variable lower : string → string.

(** [for key, value in items: self.cfg.set(key.lower(), value)]: the
    loop ends at the first call that raises. *)
Fixpoint set_items (items : list (string * setting)) (cfg : Config)
  : result Config :=
  match items with
  | [] => Ok cfg
  | (key, value) :: items =>
      cfg ← cfg_set cfg (lower key) value;
      set_items items cfg
  end.

Definition load_config (self : StandaloneGunicornApplication)
    (cfg : Config) : result Config :=
  set_items (options self) cfg.

End Gunicorn.

Definition load (self : StandaloneGunicornApplication) : App :=
  application self.

(** What [serve_logs] has done when it calls [run]. *)
Record Launch : Type := {
  proctitle : string;
  server : StandaloneGunicornApplication;
}.

Section Launcher.

(** [conf.get(section, key)] *)
Variable conf_get : string → string → result string.
(** [conf.getint(section, key, fallback=...)] *)
Variable conf_getint : string → string → option Z → result Z.
Variable expanduser : string → string.

Definition create_app : result App :=
  max_request_age ←
    conf_getint "webserver" "log_request_clock_grace" (Some 30);
  base_log_folder ← conf_get "logging" "BASE_LOG_FOLDER";
  let log_directory := expanduser base_log_folder in
  secret ← conf_get "webserver" "secret_key";
  Ok {| max_request_age := max_request_age;
        log_directory := log_directory;
        signer := {| secret_key := secret;
                     algorithm_name := "HS512";
                     expires_in := max_request_age;
                     salt := "task-instance-logs" |} |}.

Definition serve_logs : result Launch :=
  wsgi_app ← create_app;
  worker_log_server_port ←
    conf_getint "celery" "WORKER_LOG_SERVER_PORT" None;
  let opts := [("bind", SStr ("0.0.0.0:" +:+ pretty worker_log_server_port));
               ("workers", SInt 2)] in
  Ok {| proctitle := "airflow serve-logs";
        server := StandaloneGunicornApplication_init wsgi_app (Some opts) |}.

End Launcher.

(** ** Vocabulary of the specification *)

Section Vocabulary.

Variable loads : Signer → string → Z → result (json * gmap string json).

(** The request carries [token] in its [Authorization] header. *)
Definition presents (request : Request) (token : string) : Prop :=
  headers request !! "Authorization" = Some token.

(** The signer of [app], reading the clock at [t], verifies [token] and
    returns the claim: payload [payload], issued at [iat], expiring at
    [exp]. *)
Definition accepts (app : App) (token : string) (t : Z)
    (payload : json) (iat exp : Z) : Prop :=
  ∃ hdrs, loads (signer app) token t = Ok (payload, hdrs)
          ∧ hdrs !! "iat" = Some (JInt iat)
          ∧ hdrs !! "exp" = Some (JInt exp).

(** [token] is a signed token for that claim: at whatever time the
    signer is asked, it either returns the claim or raises. *)
Definition carries (app : App) (token : string)
    (payload : json) (iat exp : Z) : Prop :=
  ∀ t, accepts app token t payload iat exp
       ∨ ∃ e, is_Exception e = true ∧ loads (signer app) token t = Raise e.

(** The URL of the request matched the log route with this file name. *)
Definition requests_file (request : Request) (filename : string) : Prop :=
  ∃ args, view_args request = Some args ∧ args !! "filename" = Some filename.

End Vocabulary.

(** The router matched the request to the log route with this file
    name, and the request has the headers of the environment. *)
Definition routes_to (match_request : Environ → Request)
    (environ : Environ) (filename : string) : Prop :=
  match_request environ
  = {| headers := HTTP_HEADERS environ;
       endpoint := Some "serve_logs_view";
       view_args := Some {[ "filename" := filename ]} |}.

(** The decode step fails: no [Authorization] header, or the signer
    raises (malformed token, bad signature, expired, anything else), or a
    header field [iat] or [exp] is absent or is not an integer. *)
Inductive decoding_fails
    (loads : Signer → string → Z → result (json * gmap string json))
    (int_of_str : string → option Z)
    (app : App) (request : Request) (t : Z) : Prop :=
  | no_credential :
      headers request !! "Authorization" = None →
      decoding_fails loads int_of_str app request t
  | signer_raises token e :
      presents request token →
      loads (signer app) token t = Raise e →
      is_Exception e = true →
      decoding_fails loads int_of_str app request t
  | iat_missing token payload hdrs :
      presents request token →
      loads (signer app) token t = Ok (payload, hdrs) →
      hdrs !! "iat" = None →
      decoding_fails loads int_of_str app request t
  | iat_not_integer token payload hdrs v e :
      presents request token →
      loads (signer app) token t = Ok (payload, hdrs) →
      hdrs !! "iat" = Some v →
      py_int int_of_str v = Raise e →
      decoding_fails loads int_of_str app request t
  | exp_missing token payload hdrs v iat :
      presents request token →
      loads (signer app) token t = Ok (payload, hdrs) →
      hdrs !! "iat" = Some v →
      py_int int_of_str v = Ok iat →
      hdrs !! "exp" = None →
      decoding_fails loads int_of_str app request t
  | exp_not_integer token payload hdrs v iat w e :
      presents request token →
      loads (signer app) token t = Ok (payload, hdrs) →
      hdrs !! "iat" = Some v →
      py_int int_of_str v = Ok iat →
      hdrs !! "exp" = Some w →
      py_int int_of_str w = Raise e →
      decoding_fails loads int_of_str app request t.

(** ** A test double of the collaborators

    Instances of the section variables on which the hook and the
    dispatcher can be run: a signer that knows the tokens of a table and
    rejects an expired one, an [int] for strings of ASCII digits, a
    responder over a table of files, a router for [GET] requests below
    [/log/], a configuration, and a Gunicorn with two settings. *)
Module Scenario.

Definition claim (resource : string) (iat exp : Z)
  : json * gmap string json :=
  (JStr resource,
   {[ "alg" := JStr "HS512"; "iat" := JInt iat; "exp" := JInt exp ]}).

Definition minted : gmap string (json * gmap string json) :=
  {[ "token-1000-1020" := claim "task1.log" 1000 1020;
     "token-1000-1030" := claim "task1.log" 1000 1030;
     "token-1000-1040" := claim "task1.log" 1000 1040;
     "token-iat-text" :=
       (JStr "task1.log",
        {[ "alg" := JStr "HS512"; "iat" := JStr "soon";
           "exp" := JInt 1020 ]}) ]}.

Definition loads (s : Signer) (token : string) (t : Z)
  : result (json * gmap string json) :=
  match minted !! token with
  | None => Raise BadSignature
  | Some (payload, hdrs) =>
      match hdrs !! "exp" with
      | Some (JInt exp) =>
          if bool_decide (exp < t) then Raise SignatureExpired
          else Ok (payload, hdrs)
      | _ => Raise BadHeader
      end
  end.

Fixpoint digits (s : string) (acc : Z) : option Z :=
  match s with
  | EmptyString => Some acc
  | String c s' =>
      let n := Z.of_N (N_of_ascii c) in
      if bool_decide (48 ≤ n ≤ 57) then digits s' (10 * acc + (n - 48))
      else None
  end.

Definition int_of_str (s : string) : option Z :=
  match s with
  | EmptyString => None
  | _ => digits s 0
  end.

Definition files : gmap string string :=
  {[ "task1.log" := "{}"; "task2.log" := "{}" ]}.

Definition send_from_directory (directory filename mimetype : string)
    (as_attachment : bool) : result FileResponse :=
  match files !! filename with
  | Some data => Ok {| file_status := 200; file_mimetype := mimetype;
                       file_data := data |}
  | None => Raise (HTTPException 404)
  end.

Definition app : App :=
  {| max_request_age := 30;
     log_directory := "/var/log/airflow";
     signer := {| secret_key := "secret"; algorithm_name := "HS512";
                  expires_in := 30; salt := "task-instance-logs" |} |}.

Definition strip_prefix (p s : string) : option string :=
  if String.prefix p s
  then Some (String.substring (String.length p)
               (String.length s - String.length p)%nat s)
  else None.

Definition match_request (environ : Environ) : Request :=
  let unmatched := {| headers := HTTP_HEADERS environ;
                      endpoint := None; view_args := None |} in
  if bool_decide (REQUEST_METHOD environ = "GET") then
    match strip_prefix "/log/" (PATH_INFO environ) with
    | Some (String c rest) =>
        if Ascii.eqb c "/" then unmatched
        else {| headers := HTTP_HEADERS environ;
                endpoint := Some "serve_logs_view";
                view_args := Some {[ "filename" := String c rest ]} |}
    | _ => unmatched
    end
  else unmatched.

Definition get (path token : string) : Environ :=
  {| REQUEST_METHOD := "GET";
     PATH_INFO := path;
     HTTP_HEADERS := {[ "Authorization" := token ]} |}.

Definition anonymous (path : string) : Environ :=
  {| REQUEST_METHOD := "GET"; PATH_INFO := path; HTTP_HEADERS := ∅ |}.

Definition hook (environ : Environ) (t now : Z) : result unit :=
  validate_pre_signed_url loads int_of_str app (match_request environ) t now.

Definition respond (environ : Environ) (t now : Z)
  : list event * result Response :=
  flask_wsgi_app loads int_of_str send_from_directory match_request app
    environ t now.

Definition conf_get (section key : string) : result string :=
  if bool_decide ((section, key) = ("logging", "BASE_LOG_FOLDER"))
  then Ok "~/airflow/logs"
  else if bool_decide ((section, key) = ("webserver", "secret_key"))
  then Ok "secret"
  else Raise AirflowConfigException.

Definition conf_getint (section key : string) (fallback : option Z)
  : result Z :=
  if bool_decide ((section, key) = ("celery", "WORKER_LOG_SERVER_PORT"))
  then Ok 8793
  else match fallback with
       | Some z => Ok z
       | None => Raise AirflowConfigException
       end.

Definition expanduser (path : string) : string :=
  match strip_prefix "~" path with
  | Some rest => "/home/airflow" +:+ rest
  | None => path
  end.

Definition cfg_set (cfg : gmap string setting) (name : string)
    (value : setting) : result (gmap string setting) :=
  if bool_decide (name = "bind" ∨ name = "workers")
  then Ok (<[name := value]> cfg)
  else Raise AttributeError.

Definition lower_ascii (c : ascii) : ascii :=
  let n := N_of_ascii c in
  if bool_decide (65 ≤ n ≤ 90)%N then ascii_of_N (n + 32) else c.

Fixpoint lower (s : string) : string :=
  match s with
  | EmptyString => EmptyString
  | String c s' => String (lower_ascii c) (lower s')
  end.

End Scenario.

(** Evaluation of a closed goal. *)
Ltac run := vm_compute; reflexivity.

(** * Properties *)

Example hook_allows :
  Scenario.hook (Scenario.get "/log/task1.log" "token-1000-1020") 1015 1015
  = Ok tt.
Proof. vm_compute. reflexivity. Qed.

Example respond_200 :
  (Scenario.respond (Scenario.get "/log/task1.log" "token-1000-1020") 1015 1015).2
  = Ok (Served {| file_status := 200; file_mimetype := "application/json";
                  file_data := "{}" |}).
Proof. vm_compute. reflexivity. Qed.

Example int_truncates_float :
  py_int Scenario.int_of_str (JFloat (S754_finite false 2001 (-1))) = Ok 1000
  ∧ py_int Scenario.int_of_str (JFloat (S754_finite true 2001 (-1))) = Ok (-1000)
  ∧ py_int Scenario.int_of_str (JStr "1000") = Ok 1000
  ∧ py_int Scenario.int_of_str (JStr "soon") = Raise ValueError
  ∧ py_int Scenario.int_of_str JNull = Raise TypeError.
Proof. repeat split. Qed.

Example hook_without_route :
  Scenario.hook (Scenario.get "/health" "token-1000-1020") 1015 1015
  = Raise TypeError
  ∧ Scenario.hook (Scenario.anonymous "/health") 1015 1015 = abort 403.
Proof. split; run. Qed.

Example serve_logs_scenario :
  serve_logs Scenario.conf_get Scenario.conf_getint Scenario.expanduser
  = Ok {| proctitle := "airflow serve-logs";
          server := {| options := [("bind", SStr "0.0.0.0:8793");
                                   ("workers", SInt 2)];
                       application :=
                         {| max_request_age := 30;
                            log_directory := "/home/airflow/airflow/logs";
                            signer := {| secret_key := "secret";
                                         algorithm_name := "HS512";
                                         expires_in := 30;
                                         salt := "task-instance-logs" |} |} |} |}.
Proof. vm_compute. reflexivity. Qed.

Example load_config_scenario :
  load_config (gmap string setting) Scenario.cfg_set Scenario.lower
    {| options := [("BIND", SStr "0.0.0.0:8793"); ("workers", SInt 2)];
       application := Scenario.app |} ∅
  = Ok {[ "bind" := SStr "0.0.0.0:8793"; "workers" := SInt 2 ]}
  ∧ load_config (gmap string setting) Scenario.cfg_set Scenario.lower
      {| options := [("bind", SStr "0.0.0.0:8793"); ("colour", SInt 1);
                     ("workers", SInt 2)];
         application := Scenario.app |} ∅
    = Raise AttributeError.
Proof. split; run. Qed.

Section HookFacts.

Variable loads : Signer → string → Z → result (json * gmap string json).
Variable int_of_str : string → option Z.

#[local] Abbreviation decode' := (decode loads int_of_str).
#[local] Abbreviation validate := (validate_pre_signed_url loads int_of_str).
#[local] Abbreviation accepts := (accepts loads).
#[local] Abbreviation carries := (carries loads).

Lemma py_int_raises v e : py_int int_of_str v = Raise e → is_Exception e = true.
Proof.
  destruct v as [| b | z | f | s | l | d]; simpl; intros H;
    try (inversion H; reflexivity).
  - destruct f; inversion H; reflexivity.
  - destruct (int_of_str s); inversion H; reflexivity.
Qed.

Lemma ne_str_false p path : ne_str p path = false ↔ p = JStr path.
Proof.
  split.
  - destruct p; simpl; try discriminate.
    intros H. apply bool_decide_eq_false in H.
    f_equal. destruct (decide (s = path)); tauto.
  - intros ->. simpl. apply bool_decide_eq_false. tauto.
Qed.

Lemma decode_accepts app request token t p iat exp :
  presents request token → accepts app token t p iat exp →
  decode' app request t = Ok (p, iat, exp).
Proof.
  intros Hp (hdrs & Hl & Hi & He).
  unfold decode, getitem. rewrite Hp. simpl.
  rewrite Hl. simpl. rewrite Hi. simpl. rewrite He. reflexivity.
Qed.

Lemma decode_fails app request t :
  decoding_fails loads int_of_str app request t →
  ∃ e, decode' app request t = Raise e ∧ is_Exception e = true.
Proof.
  unfold presents.
  intros [H | token e Hp Hl He | token p hdrs Hp Hl Hi
         | token p hdrs v e Hp Hl Hi Hv
         | token p hdrs v iat Hp Hl Hi Hv Hx
         | token p hdrs v iat w e Hp Hl Hi Hv Hx Hw];
    unfold decode, getitem; rewrite ?H, ?Hp; simpl;
    rewrite ?Hl; simpl; rewrite ?Hi; simpl; rewrite ?Hv; simpl;
    rewrite ?Hx; simpl; rewrite ?Hw; simpl; eauto using py_int_raises.
Qed.

(** Conversely, these are all the ways in which the [try] block raises
    an [Exception]. *)
Lemma decode_raises_inv app request t e :
  decode' app request t = Raise e → is_Exception e = true →
  decoding_fails loads int_of_str app request t.
Proof.
  unfold decode, getitem. intros H He.
  destruct (headers request !! "Authorization") as [token | ] eqn:Hp;
    [ | by apply no_credential].
  simpl in H.
  destruct (loads (signer app) token t) as [[p hdrs] | e'] eqn:Hl;
    [ | simpl in H; injection H as ->; by eapply signer_raises].
  simpl in H.
  destruct (hdrs !! "iat") as [v | ] eqn:Hi; [ | by eapply iat_missing].
  simpl in H.
  destruct (py_int int_of_str v) as [iat | e'] eqn:Hv;
    [ | by eapply iat_not_integer].
  simpl in H.
  destruct (hdrs !! "exp") as [w | ] eqn:Hx; [ | by eapply exp_missing].
  simpl in H.
  destruct (py_int int_of_str w) as [exp | e'] eqn:Hw;
    [discriminate | by eapply exp_not_integer].
Qed.

Lemma validate_decode_raises app request t now e :
  decode' app request t = Raise e → is_Exception e = true →
  validate app request t now = abort 403.
Proof.
  intros Hd He. unfold validate_pre_signed_url, try_except_Exception.
  rewrite Hd, He. reflexivity.
Qed.

(** Once the claim is decoded on a request of the log route, the hook
    is a conjunction of five tests. *)
Lemma validate_decoded app request t now p iat exp path :
  decode' app request t = Ok (p, iat, exp) →
  requests_file request path →
  validate app request t now =
    if bool_decide (ne_str p path = false
                    ∧ Z.abs (now - iat) ≤ max_request_age app
                    ∧ Z.abs (now - exp) ≤ max_request_age app
                    ∧ iat ≤ exp ∧ exp - iat ≤ max_request_age app)
    then Ok tt else abort 403.
Proof.
  intros Hd (args & Hargs & Hf).
  unfold validate_pre_signed_url, try_except_Exception, getitem_opt, getitem.
  rewrite Hd, Hargs, Hf. simpl.
  destruct (ne_str p path) eqn:Hne; simpl.
  { reflexivity. }
  unfold py_if.
  repeat case_bool_decide; simpl; try reflexivity; exfalso; intuition lia.
Qed.

End HookFacts.

Section HookOutcomes.

Variable loads : Signer → string → Z → result (json * gmap string json).
Variable int_of_str : string → option Z.

#[local] Abbreviation decode' := (decode loads int_of_str).
#[local] Abbreviation validate := (validate_pre_signed_url loads int_of_str).

(** On the log route the only [Exception] that leaves the hook is the
    one of [abort(403)]. *)
Lemma hook_raises_only_403 app request t now path e :
  requests_file request path →
  validate app request t now = Raise e → is_Exception e = true →
  e = HTTPException 403.
Proof.
  intros Hr Hv He.
  destruct (decode' app request t) as [[[p iat] exp] | e'] eqn:Hd.
  - rewrite (validate_decoded _ _ _ _ _ _ _ _ _ _ Hd Hr) in Hv.
    case_bool_decide; [discriminate | ]. unfold abort in Hv. congruence.
  - destruct (is_Exception e') eqn:He'.
    + rewrite (validate_decode_raises _ _ _ _ _ _ _ Hd He') in Hv.
      unfold abort in Hv. congruence.
    + unfold validate_pre_signed_url, try_except_Exception in Hv.
      rewrite Hd, He' in Hv. simpl in Hv. congruence.
Qed.

(** Without a [filename] view argument the hook cannot compare. *)
Lemma validate_unrouted app request t now p iat exp :
  decode' app request t = Ok (p, iat, exp) →
  validate app request t now =
    match view_args request with
    | None => Raise TypeError
    | Some args =>
        match args !! "filename" with
        | None => Raise KeyError
        | Some path => validate app request t now
        end
    end.
Proof.
  intros Hd. unfold validate_pre_signed_url, try_except_Exception.
  rewrite Hd. simpl. unfold getitem_opt, getitem.
  destruct (view_args request) as [args |]; [ | reflexivity].
  destruct (args !! "filename"); reflexivity.
Qed.

End HookOutcomes.

Section DispatchFacts.

Variable loads : Signer → string → Z → result (json * gmap string json).
Variable int_of_str : string → option Z.
Variable send_from_directory :
  string → string → string → bool → result FileResponse.

#[local] Abbreviation validate := (validate_pre_signed_url loads int_of_str).
#[local] Abbreviation full_dispatch :=
  (full_dispatch_request loads int_of_str send_from_directory).
#[local] Abbreviation the_app :=
  (flask_app loads int_of_str send_from_directory).

(** What [create_app] registers. *)
Lemma flask_app_registrations app :
  Flask.before_request_funcs (the_app app) = [validate app]
  ∧ Flask.url_map (the_app app) = [("/log/<path:filename>", "serve_logs_view")]
  ∧ ∀ ep, Flask.view_functions (the_app app) !! ep
          = if bool_decide (ep = "serve_logs_view")
            then Some (serve_logs_view_kwargs send_from_directory app)
            else None.
Proof.
  split; [reflexivity | ]. split; [reflexivity | ].
  intros ep. unfold flask_app, Flask.route. simpl. case_bool_decide as H.
  - subst ep. apply lookup_insert_eq.
  - rewrite lookup_insert_ne by congruence. apply lookup_empty.
Qed.

(** The dispatch of a request over these registrations. *)
Lemma full_dispatch_unfold app request t now :
  full_dispatch app request t now =
    match validate app request t now with
    | Ok _ =>
        let '(trace, rv) := Flask.dispatch_request (the_app app) request in
        (BeforeRequest (validate app request t now) :: trace, finalize rv)
    | Raise e => ([BeforeRequest (Raise e)], handle_user_exception e)
    end.
Proof.
  unfold full_dispatch_request, Flask.full_dispatch_request.
  destruct (flask_app_registrations app) as (-> & _).
  unfold Flask.preprocess_request, tbind.
  destruct (validate app request t now) as [[] | e]; [ | reflexivity].
  by destruct (Flask.dispatch_request (the_app app) request).
Qed.

Lemma dispatch_raise app request t now e :
  validate app request t now = Raise e →
  full_dispatch app request t now
  = ([BeforeRequest (Raise e)], handle_user_exception e).
Proof. intros H. rewrite full_dispatch_unfold, H. reflexivity. Qed.

Lemma dispatch_denied app request t now :
  validate app request t now = abort 403 →
  full_dispatch app request t now
  = ([BeforeRequest (abort 403)], Ok (ErrorPage 403)).
Proof. intros H. apply (dispatch_raise _ _ _ _ _ H). Qed.

Lemma dispatch_allowed app request t now path :
  validate app request t now = Ok tt →
  endpoint request = Some "serve_logs_view" →
  requests_file request path →
  full_dispatch app request t now
  = ([BeforeRequest (Ok tt); SendFromDirectory (log_directory app) path],
     finalize (send_from_directory (log_directory app) path
                 "application/json" false)).
Proof.
  intros Hv He (args & Hargs & Hf).
  rewrite full_dispatch_unfold, Hv. unfold Flask.dispatch_request.
  rewrite He. destruct (flask_app_registrations app) as (_ & _ & ->).
  rewrite bool_decide_eq_true_2 by reflexivity.
  unfold serve_logs_view_kwargs, getitem_opt, getitem.
  rewrite Hargs, Hf. reflexivity.
Qed.

(** The responder is called by the one view only, on the directory of
    the application and the file name of the view arguments. *)
Lemma dispatch_request_trace app request directory filename :
  SendFromDirectory directory filename
    ∈ (Flask.dispatch_request (the_app app) request).1 →
  directory = log_directory app ∧ requests_file request filename.
Proof.
  unfold Flask.dispatch_request.
  destruct (endpoint request) as [ep | ]; simpl;
    [ | by intros ?%elem_of_nil].
  destruct (flask_app_registrations app) as (_ & _ & ->).
  case_bool_decide; simpl; [ | by intros ?%elem_of_nil].
  unfold serve_logs_view_kwargs, getitem_opt, getitem, requests_file.
  destruct (view_args request) as [args | ]; simpl;
    [ | by intros ?%elem_of_nil].
  destruct (args !! "filename") as [name | ] eqn:Hf; simpl;
    [ | by intros ?%elem_of_nil].
  intros [= -> ->]%list_elem_of_singleton. split; [reflexivity | by exists args].
Qed.

(** The responder appears in a trace only behind a hook that returned
    normally. *)
Lemma dispatch_trace app request t now :
  ∃ rest,
    (full_dispatch app request t now).1
    = BeforeRequest (validate app request t now) :: rest
    ∧ (validate app request t now ≠ Ok tt → rest = [])
    ∧ (validate app request t now = Ok tt →
       rest = (Flask.dispatch_request (the_app app) request).1).
Proof.
  rewrite full_dispatch_unfold.
  destruct (validate app request t now) as [[] | e] eqn:Hv.
  - destruct (Flask.dispatch_request (the_app app) request) as [trace r].
    simpl. exists trace. split; [reflexivity | ]. split; congruence.
  - exists []. split; [reflexivity | ]. split; [reflexivity | discriminate].
Qed.

Lemma routed_request (match_request : Environ → Request) environ path :
  routes_to match_request environ path →
  endpoint (match_request environ) = Some "serve_logs_view"
  ∧ requests_file (match_request environ) path
  ∧ headers (match_request environ) = HTTP_HEADERS environ.
Proof.
  unfold routes_to, requests_file. intros ->. simpl.
  repeat split. eexists. split; [reflexivity | ]. apply lookup_singleton_eq.
Qed.

End DispatchFacts.

(** ** The claims about the authorization hook *)

Section TokenChecks.

Variable loads : Signer → string → Z → result (json * gmap string json).
Variable int_of_str : string → option Z.
Variable send_from_directory :
  string → string → string → bool → result FileResponse.

#[local] Abbreviation validate := (validate_pre_signed_url loads int_of_str).
#[local] Abbreviation full_dispatch :=
  (full_dispatch_request loads int_of_str send_from_directory).
#[local] Abbreviation accepts := (accepts loads).
#[local] Abbreviation carries := (carries loads).

(** C1, as amended.  For every claim [(resource, issued_at, expires_at)]
    with [issued_at <= expires_at <= issued_at + max_age], a token that
    the signer accepts and that carries the claim, presented on a
    request of the log route whose file name equals [resource], is
    allowed at every [now] with
    [expires_at - max_age <= now <= issued_at + max_age]: the hook
    returns normally, the responder is called next, and the response
    is the responder's. *)
Theorem accepted_token_allowed_in_window
    app request token t now resource issued_at expires_at :
  presents request token →
  accepts app token t (JStr resource) issued_at expires_at →
  endpoint request = Some "serve_logs_view" →
  requests_file request resource →
  issued_at ≤ expires_at ≤ issued_at + max_request_age app →
  expires_at - max_request_age app ≤ now ≤ issued_at + max_request_age app →
  validate app request t now = Ok tt
  ∧ full_dispatch app request t now
    = ([BeforeRequest (Ok tt);
        SendFromDirectory (log_directory app) resource],
       finalize (send_from_directory (log_directory app) resource
                   "application/json" false)).
Proof.
  intros Hp Ha He Hr Hspan Hnow.
  assert (Hv : validate app request t now = Ok tt).
  { rewrite (validate_decoded _ _ _ _ _ _ _ _ _ _
               (decode_accepts _ int_of_str _ _ _ _ _ _ _ Hp Ha) Hr).
    rewrite bool_decide_eq_true_2; [reflexivity | ].
    split; [by apply ne_str_false | lia]. }
  split; [exact Hv | ]. by apply dispatch_allowed.
Qed.

(** X13.  The window of C1 is exact: outside of it the same request
    is denied. *)
Lemma accepted_token_denied_outside_window
    app request token t now resource issued_at expires_at :
  presents request token →
  accepts app token t (JStr resource) issued_at expires_at →
  requests_file request resource →
  now < expires_at - max_request_age app
  ∨ issued_at + max_request_age app < now →
  validate app request t now = abort 403.
Proof.
  intros Hp Ha Hr Hout.
  rewrite (validate_decoded _ _ _ _ _ _ _ _ _ _
             (decode_accepts _ int_of_str _ _ _ _ _ _ _ Hp Ha) Hr).
  rewrite bool_decide_eq_false_2; [reflexivity | lia].
Qed.

(** C3.  A token that the signer accepts, whatever its timestamps, is
    denied with 403 on a request of the log route whose file name is
    not, as a string, the payload of the token. *)
Theorem resource_mismatch_denied
    app request token t now payload issued_at expires_at path :
  presents request token →
  accepts app token t payload issued_at expires_at →
  requests_file request path →
  payload ≠ JStr path →
  validate app request t now = abort 403
  ∧ full_dispatch app request t now
    = ([BeforeRequest (abort 403)], Ok (ErrorPage 403)).
Proof.
  intros Hp Ha Hr Hne.
  assert (Hv : validate app request t now = abort 403).
  { rewrite (validate_decoded _ _ _ _ _ _ _ _ _ _
               (decode_accepts _ int_of_str _ _ _ _ _ _ _ Hp Ha) Hr).
    rewrite bool_decide_eq_false_2; [reflexivity | ].
    intros [H _]. by apply ne_str_false in H. }
  split; [exact Hv | ]. by apply dispatch_denied.
Qed.

(** C4.  A decoded claim with [issued_at > expires_at], or with
    [expires_at - issued_at > max_age], is denied with 403 on the log
    route at every [now], also at one within [max_age] of both
    timestamps. *)
Theorem invalid_span_denied
    app request token t payload issued_at expires_at path :
  presents request token →
  accepts app token t payload issued_at expires_at →
  requests_file request path →
  issued_at > expires_at
  ∨ expires_at - issued_at > max_request_age app →
  ∀ now,
    validate app request t now = abort 403
    ∧ full_dispatch app request t now
      = ([BeforeRequest (abort 403)], Ok (ErrorPage 403)).
Proof.
  intros Hp Ha Hr Hbad now.
  assert (Hv : validate app request t now = abort 403).
  { rewrite (validate_decoded _ _ _ _ _ _ _ _ _ _
               (decode_accepts _ int_of_str _ _ _ _ _ _ _ Hp Ha) Hr).
    rewrite bool_decide_eq_false_2; [reflexivity | ]. lia. }
  split; [exact Hv | ]. by apply dispatch_denied.
Qed.

(** C5.  The bounds of the freshness window are inclusive: an
    otherwise valid token is allowed at [now = issued_at + max_age]
    and at [now = expires_at - max_age], and denied one second beyond
    either. *)
Theorem freshness_bounds_inclusive
    app request token t1 t2 resource issued_at expires_at :
  presents request token →
  carries app token (JStr resource) issued_at expires_at →
  accepts app token t1 (JStr resource) issued_at expires_at →
  accepts app token t2 (JStr resource) issued_at expires_at →
  requests_file request resource →
  issued_at ≤ expires_at ≤ issued_at + max_request_age app →
  validate app request t1 (issued_at + max_request_age app) = Ok tt
  ∧ validate app request t2 (expires_at - max_request_age app) = Ok tt
  ∧ (∀ t, validate app request t (issued_at + max_request_age app + 1)
          = abort 403)
  ∧ (∀ t, validate app request t (expires_at - max_request_age app - 1)
          = abort 403).
Proof.
  intros Hp Hc Ha1 Ha2 Hr Hspan.
  assert (ne_str (JStr resource) resource = false) by by apply ne_str_false.
  assert (Hdenied : ∀ t now,
    Z.abs (now - issued_at) > max_request_age app
    ∨ Z.abs (now - expires_at) > max_request_age app →
    validate app request t now = abort 403).
  { intros t now Hout. destruct (Hc t) as [Ha | (e & He & Hl)].
    - rewrite (validate_decoded _ _ _ _ _ _ _ _ _ _
                 (decode_accepts _ int_of_str _ _ _ _ _ _ _ Hp Ha) Hr).
      rewrite bool_decide_eq_false_2; [reflexivity | lia].
    - eapply validate_decode_raises; [ | exact He].
      unfold decode, getitem. unfold presents in Hp. rewrite Hp. simpl.
      by rewrite Hl. }
  split; [ | split; [ | split]].
  - rewrite (validate_decoded _ _ _ _ _ _ _ _ _ _
               (decode_accepts _ int_of_str _ _ _ _ _ _ _ Hp Ha1) Hr).
    rewrite bool_decide_eq_true_2; [reflexivity | ]. split; [done | lia].
  - rewrite (validate_decoded _ _ _ _ _ _ _ _ _ _
               (decode_accepts _ int_of_str _ _ _ _ _ _ _ Hp Ha2) Hr).
    rewrite bool_decide_eq_true_2; [reflexivity | ]. split; [done | lia].
  - intros t. apply Hdenied. lia.
  - intros t. apply Hdenied. lia.
Qed.

End TokenChecks.

Section DenialAndDispatch.

Variable loads : Signer → string → Z → result (json * gmap string json).
Variable int_of_str : string → option Z.
Variable send_from_directory :
  string → string → string → bool → result FileResponse.
Variable match_request : Environ → Request.

#[local] Abbreviation validate := (validate_pre_signed_url loads int_of_str).
#[local] Abbreviation full_dispatch :=
  (full_dispatch_request loads int_of_str send_from_directory).
#[local] Abbreviation the_app :=
  (flask_app loads int_of_str send_from_directory).
#[local] Abbreviation respond :=
  (flask_wsgi_app loads int_of_str send_from_directory match_request).
#[local] Abbreviation accepts := (accepts loads).
#[local] Abbreviation carries := (carries loads).

(** C2.  When the [Authorization] header is absent, or the signer
    raises on the token (malformed, bad signature, any other
    exception), or a header field [iat] or [exp] is absent or not an
    integer, the request is denied with 403; and every denial of a
    request of the log route is that same outcome and that same
    response. *)
Theorem failed_decoding_opaque_403 app request t now :
  decoding_fails loads int_of_str app request t →
  validate app request t now = abort 403
  ∧ full_dispatch app request t now
    = ([BeforeRequest (abort 403)], Ok (ErrorPage 403))
  ∧ ∀ app' request' t' now' path e,
      requests_file request' path →
      validate app' request' t' now' = Raise e →
      is_Exception e = true →
      validate app' request' t' now' = validate app request t now
      ∧ full_dispatch app' request' t' now' = full_dispatch app request t now.
Proof.
  intros Hf. destruct (decode_fails _ _ _ _ _ Hf) as (e & Hd & He).
  pose proof (validate_decode_raises _ _ _ _ _ now _ Hd He) as Hv.
  pose proof (dispatch_denied _ _ send_from_directory _ _ _ _ Hv) as Hr.
  split; [exact Hv | ]. split; [exact Hr | ].
  intros app' request' t' now' path e' Hroute Hv' He'.
  pose proof (hook_raises_only_403 _ _ _ _ _ _ _ _ Hroute Hv' He') as ->.
  rewrite Hv, Hr. split; [exact Hv' | ]. by apply dispatch_denied.
Qed.

(** C6.  [create_app] registers the hook as the one [before_request]
    function of the application and [serve_logs_view] as its one view.
    So for every request, matched to a rule or not, the hook is the
    first step; the file responder is called only after the hook has
    returned normally, and then on the log directory and the file name
    that the hook compared; and a file response is returned only when
    the hook has returned normally. *)
Theorem responder_only_after_allow app request t now :
  Flask.before_request_funcs (the_app app) = [validate app]
  ∧ dom (Flask.view_functions (the_app app)) = {[ "serve_logs_view" ]}
  ∧ ∃ rest,
      (full_dispatch app request t now).1
      = BeforeRequest (validate app request t now) :: rest
      ∧ (∀ directory filename,
            SendFromDirectory directory filename ∈ rest →
            validate app request t now = Ok tt
            ∧ directory = log_directory app
            ∧ requests_file request filename)
      ∧ (∀ r, (full_dispatch app request t now).2 = Ok (Served r) →
              validate app request t now = Ok tt).
Proof.
  destruct (flask_app_registrations loads int_of_str send_from_directory app)
    as (Hfuncs & _ & Hviews).
  split; [exact Hfuncs | ]. split.
  { apply set_eq. intros ep. rewrite elem_of_dom, Hviews, elem_of_singleton.
    case_bool_decide; split; intros H'; try done; by destruct H'. }
  destruct (dispatch_trace loads int_of_str send_from_directory
              app request t now) as (rest & Htrace & Hdenied & Hallowed).
  exists rest. split; [exact Htrace | ]. split.
  - intros d f Hin.
    destruct (validate app request t now) as [[] | e] eqn:Hv.
    + split; [reflexivity | ]. rewrite Hallowed in Hin by reflexivity.
      by apply dispatch_request_trace in Hin.
    + rewrite Hdenied in Hin by congruence. by apply elem_of_nil in Hin.
  - intros r. rewrite full_dispatch_unfold.
    destruct (validate app request t now) as [[] | e] eqn:Hv; [reflexivity | ].
    simpl. destruct e; simpl; congruence.
Qed.

(** C7.  With [max_age = 30] and a signed token carrying
    [issued_at = 1000], [expires_at = 1020] and resource [task1.log],
    the router sending [GET /log/<name>] to the log route with file
    name [<name>]: a request for [/log/task1.log] at [now = 1015], the
    signer accepting the token and the responder finding the file,
    returns 200; the token on [/log/task2.log] is denied with 403; and
    the token on [/log/task1.log] at [now = 1060] is denied with 403. *)
Theorem task1_scenario app token hdrs t r :
  let get path := {| REQUEST_METHOD := "GET"; PATH_INFO := path;
                     HTTP_HEADERS := hdrs |} in
  max_request_age app = 30 →
  hdrs !! "Authorization" = Some token →
  routes_to match_request (get "/log/task1.log") "task1.log" →
  routes_to match_request (get "/log/task2.log") "task2.log" →
  carries app token (JStr "task1.log") 1000 1020 →
  accepts app token t (JStr "task1.log") 1000 1020 →
  send_from_directory (log_directory app) "task1.log" "application/json"
    false = Ok r →
  file_status r = 200 →
  (∃ response,
      (respond app (get "/log/task1.log") t 1015).2 = Ok response
      ∧ status_code response = 200)
  ∧ (∀ t' now, (respond app (get "/log/task2.log") t' now).2
               = Ok (ErrorPage 403))
  ∧ (∀ t', (respond app (get "/log/task1.log") t' 1060).2
           = Ok (ErrorPage 403)).
Proof.
  intros get Hage Hauth Hroute1 Hroute2 Hcarries Haccepts Hsend Hstatus.
  destruct (routed_request _ _ _ Hroute1) as (Hep1 & Hfile1 & Hhdr1).
  destruct (routed_request _ _ _ Hroute2) as (Hep2 & Hfile2 & Hhdr2).
  assert (Hp1 : presents (match_request (get "/log/task1.log")) token)
    by (unfold presents; by rewrite Hhdr1).
  assert (Hp2 : presents (match_request (get "/log/task2.log")) token)
    by (unfold presents; by rewrite Hhdr2).
  assert (Hdenied : ∀ request t' now,
    presents request token →
    decode loads int_of_str app request t' = Ok (JStr "task1.log", 1000, 1020)
    ∨ validate app request t' now = abort 403).
  { intros request t' now Hp.
    destruct (Hcarries t') as [Ha | (e & He & Hl)].
    - left. by eapply decode_accepts.
    - right. eapply validate_decode_raises; [ | exact He].
      unfold decode, getitem. unfold presents in Hp. rewrite Hp. simpl.
      by rewrite Hl. }
  unfold flask_wsgi_app. repeat split.
  - exists (Served r). split; [ | exact Hstatus].
    assert (Hv : validate app (match_request (get "/log/task1.log")) t 1015
                 = Ok tt).
    { rewrite (validate_decoded _ _ _ _ _ _ _ _ _ _
                 (decode_accepts _ int_of_str _ _ _ _ _ _ _ Hp1 Haccepts)
                 Hfile1).
      rewrite Hage. reflexivity. }
    rewrite (dispatch_allowed _ _ send_from_directory _ _ _ _ _
               Hv Hep1 Hfile1).
    simpl. by rewrite Hsend.
  - intros t' now.
    rewrite (dispatch_denied loads int_of_str send_from_directory);
      [reflexivity | ].
    destruct (Hdenied _ t' now Hp2) as [Hd | Hv]; [ | exact Hv].
    rewrite (validate_decoded _ _ _ _ _ _ _ _ _ _ Hd Hfile2). reflexivity.
  - intros t'.
    rewrite (dispatch_denied loads int_of_str send_from_directory);
      [reflexivity | ].
    destruct (Hdenied _ t' 1060 Hp1) as [Hd | Hv]; [ | exact Hv].
    rewrite (validate_decoded _ _ _ _ _ _ _ _ _ _ Hd Hfile1).
    rewrite Hage. reflexivity.
Qed.

End DenialAndDispatch.

Section HookAsFunction.

Variable loads : Signer → string → Z → result (json * gmap string json).
Variable int_of_str : string → option Z.
Variable send_from_directory :
  string → string → string → bool → result FileResponse.

#[local] Abbreviation validate := (validate_pre_signed_url loads int_of_str).
#[local] Abbreviation full_dispatch :=
  (full_dispatch_request loads int_of_str send_from_directory).
#[local] Abbreviation accepts := (accepts loads).

(** X16.  The decision of the hook depends on the request only through
    its [Authorization] header and its [filename] view argument: two
    requests that agree on these get the same decision at the same
    readings of the clock, whatever else they carry. *)
Lemma validate_depends_on app request request' t now :
  headers request !! "Authorization" = headers request' !! "Authorization" →
  getitem_opt (view_args request) "filename"
  = getitem_opt (view_args request') "filename" →
  validate app request t now = validate app request' t now.
Proof.
  intros Hh Hv. unfold validate_pre_signed_url, decode, getitem.
  rewrite Hh.
  destruct (headers request' !! "Authorization") as [token | ]; simpl;
    [ | reflexivity].
  destruct (try_except_Exception _ _) as [[[p iat] exp] | e]; simpl;
    [ | reflexivity].
  unfold getitem in Hv. by rewrite Hv.
Qed.

(** C10.  The comparison of file names is partial.  A request that
    presents an accepted token and whose URL matched no rule makes the
    hook raise [TypeError], and one whose view arguments lack
    [filename] makes it raise [KeyError]: the response is a 500, not
    the 403.  For a request matched to the log route the only
    [Exception] that leaves the hook is the 403. *)
Theorem filename_lookup_partial
    app request token t now payload issued_at expires_at :
  presents request token →
  accepts app token t payload issued_at expires_at →
  (view_args request = None →
     validate app request t now = Raise TypeError
     ∧ full_dispatch app request t now
       = ([BeforeRequest (Raise TypeError)], Ok (ErrorPage 500)))
  ∧ (∀ args, view_args request = Some args → args !! "filename" = None →
       validate app request t now = Raise KeyError
       ∧ full_dispatch app request t now
         = ([BeforeRequest (Raise KeyError)], Ok (ErrorPage 500)))
  ∧ (∀ path e, requests_file request path →
       validate app request t now = Raise e → is_Exception e = true →
       e = HTTPException 403).
Proof.
  intros Hp Ha.
  pose proof (decode_accepts _ int_of_str _ _ _ _ _ _ _ Hp Ha) as Hd.
  pose proof (validate_unrouted _ _ _ _ _ now _ _ _ Hd) as Hv.
  split; [ | split].
  - intros Hnone. rewrite Hnone in Hv.
    split; [exact Hv | by apply dispatch_raise].
  - intros args Hargs Hnone. rewrite Hargs, Hnone in Hv.
    split; [exact Hv | by apply dispatch_raise].
  - intros path e Hroute Hraise He. by eapply hook_raises_only_403.
Qed.

End HookAsFunction.

Section LauncherClaims.

Variable conf_get : string → string → result string.
Variable conf_getint : string → string → option Z → result Z.
Variable expanduser : string → string.
Variable Config : Type.
Variable cfg_set : Config → string → setting → result Config.
Variable lower : string → string.

(** C9.  When the configuration provides what [create_app] reads and
    the port, [serve_logs] runs the application under Gunicorn with the
    options [bind], set to [0.0.0.0:port], and [workers], set to 2;
    [load_config] puts both in the listener's configuration, in this
    order, by [cfg.set] under the lower-cased key, before it starts. *)
Theorem serve_logs_binds_configured_port app port :
  create_app conf_get conf_getint expanduser = Ok app →
  conf_getint "celery" "WORKER_LOG_SERVER_PORT" None = Ok port →
  ∃ launch,
    serve_logs conf_get conf_getint expanduser = Ok launch
    ∧ load (server launch) = app
    ∧ options (server launch)
      = [("bind", SStr ("0.0.0.0:" +:+ pretty port)); ("workers", SInt 2)]
    ∧ ∀ cfg,
        load_config Config cfg_set lower (server launch) cfg
        = (cfg ← cfg_set cfg (lower "bind")
                   (SStr ("0.0.0.0:" +:+ pretty port));
           cfg ← cfg_set cfg (lower "workers") (SInt 2);
           Ok cfg).
Proof.
  intros Happ Hport. unfold serve_logs. rewrite Happ. simpl.
  rewrite Hport. simpl. eexists. repeat split.
Qed.

(** X10.  [serve_logs] starts nothing else: a launch always has these
    two options, which [load_config] sets in this order, the process
    title, and the port of the configuration. *)
Lemma serve_logs_inv launch :
  serve_logs conf_get conf_getint expanduser = Ok launch →
  ∃ port,
    conf_getint "celery" "WORKER_LOG_SERVER_PORT" None = Ok port
    ∧ create_app conf_get conf_getint expanduser = Ok (load (server launch))
    ∧ proctitle launch = "airflow serve-logs"
    ∧ options (server launch)
      = [("bind", SStr ("0.0.0.0:" +:+ pretty port)); ("workers", SInt 2)]
    ∧ ∀ cfg,
        load_config Config cfg_set lower (server launch) cfg
        = (cfg ← cfg_set cfg (lower "bind")
                   (SStr ("0.0.0.0:" +:+ pretty port));
           cfg ← cfg_set cfg (lower "workers") (SInt 2);
           Ok cfg).
Proof.
  unfold serve_logs.
  destruct (create_app conf_get conf_getint expanduser) as [app | e];
    [ | discriminate].
  simpl.
  destruct (conf_getint "celery" "WORKER_LOG_SERVER_PORT" None)
    as [port | e]; [ | discriminate].
  simpl. intros [= <-]. exists port. repeat split.
Qed.

End LauncherClaims.

(** ** The claims on the test double *)

Lemma scenario_accepts token t resource iat exp :
  Scenario.loads (signer Scenario.app) token t
  = Ok (Scenario.claim resource iat exp) →
  accepts Scenario.loads Scenario.app token t (JStr resource) iat exp.
Proof.
  intros H. exists (Scenario.claim resource iat exp).2.
  split; [exact H | ]. unfold Scenario.claim. simpl.
  split; by simplify_map_eq.
Defined.

Lemma scenario_carries token resource iat exp :
  Scenario.minted !! token = Some (Scenario.claim resource iat exp) →
  carries Scenario.loads Scenario.app token (JStr resource) iat exp.
Proof.
  intros H t.
  assert (Hl : Scenario.loads (signer Scenario.app) token t
               = if bool_decide (exp < t) then Raise SignatureExpired
                 else Ok (Scenario.claim resource iat exp)).
  { unfold Scenario.loads. rewrite H. unfold Scenario.claim.
    by simplify_map_eq. }
  destruct (bool_decide (exp < t)).
  - right. exists SignatureExpired. split; [reflexivity | exact Hl].
  - left. by apply scenario_accepts.
Defined.

Lemma scenario_requests_file path token name :
  routes_to Scenario.match_request (Scenario.get path token) name →
  requests_file (Scenario.match_request (Scenario.get path token)) name.
Proof.
  intros H.
  exact (proj1 (proj2 (routed_request Scenario.match_request
                         (Scenario.get path token) name H))).
Defined.

(** C1, as stated, fails: the token of the scenario, issued at 1000 and
    expiring at 1020 with [max_age = 30], is accepted by the signer at
    975, which is within [[1000 - 30, 1020 + 30]], and the hook denies
    the request, 975 being more than 30 before the expiry. *)
Lemma claimed_window_not_allowed :
  let request := Scenario.match_request (Scenario.get "/log/task1.log" "token-1000-1020") in
  presents request "token-1000-1020"
  ∧ accepts Scenario.loads Scenario.app "token-1000-1020" 975
      (JStr "task1.log") 1000 1020
  ∧ requests_file request "task1.log"
  ∧ 1000 ≤ 1020 ≤ 1000 + max_request_age Scenario.app
  ∧ 1000 - max_request_age Scenario.app ≤ 975
    ≤ 1020 + max_request_age Scenario.app
  ∧ validate_pre_signed_url Scenario.loads Scenario.int_of_str Scenario.app
      request 975 975 = abort 403
  ∧ validate_pre_signed_url Scenario.loads Scenario.int_of_str Scenario.app
      request 975 975 ≠ Ok tt.
Proof.
  intros request. split; [run | ].
  split; [apply scenario_accepts; run | ].
  split; [by apply scenario_requests_file | ].
  split; [simpl; lia | ]. split; [simpl; lia | ].
  split; [run | ]. vm_compute. discriminate.
Qed.

(** The token issued at 1000 and expiring at 1020 is allowed at 1015. *)
Lemma accepted_token_allowed_in_window_witness :
  let request := Scenario.match_request (Scenario.get "/log/task1.log" "token-1000-1020") in
  validate_pre_signed_url Scenario.loads Scenario.int_of_str Scenario.app
    request 1015 1015 = Ok tt
  ∧ full_dispatch_request Scenario.loads Scenario.int_of_str
      Scenario.send_from_directory Scenario.app request 1015 1015
    = ([BeforeRequest (Ok tt);
        SendFromDirectory (log_directory Scenario.app) "task1.log"],
       finalize (Scenario.send_from_directory (log_directory Scenario.app)
                   "task1.log" "application/json" false)).
Proof.
  intros request.
  apply (accepted_token_allowed_in_window Scenario.loads Scenario.int_of_str
           Scenario.send_from_directory Scenario.app request
           "token-1000-1020" 1015 1015 "task1.log" 1000 1020).
  - reflexivity.
  - apply scenario_accepts. reflexivity.
  - reflexivity.
  - by apply scenario_requests_file.
  - simpl. lia.
  - simpl. lia.
Defined.

(** The token for [task1.log] is denied on [/log/task2.log]. *)
Lemma resource_mismatch_denied_witness :
  let request := Scenario.match_request (Scenario.get "/log/task2.log" "token-1000-1020") in
  validate_pre_signed_url Scenario.loads Scenario.int_of_str Scenario.app
    request 1015 1015 = abort 403
  ∧ full_dispatch_request Scenario.loads Scenario.int_of_str
      Scenario.send_from_directory Scenario.app request 1015 1015
    = ([BeforeRequest (abort 403)], Ok (ErrorPage 403)).
Proof.
  intros request.
  apply (resource_mismatch_denied Scenario.loads Scenario.int_of_str
           Scenario.send_from_directory Scenario.app request
           "token-1000-1020" 1015 1015 (JStr "task1.log") 1000 1020
           "task2.log").
  - reflexivity.
  - apply scenario_accepts. reflexivity.
  - by apply scenario_requests_file.
  - discriminate.
Defined.

(** A span of 40 seconds is denied at 1020, within 30 of both ends. *)
Lemma invalid_span_denied_witness :
  let request := Scenario.match_request (Scenario.get "/log/task1.log" "token-1000-1040") in
  Z.abs (1020 - 1000) ≤ max_request_age Scenario.app
  ∧ Z.abs (1020 - 1040) ≤ max_request_age Scenario.app
  ∧ validate_pre_signed_url Scenario.loads Scenario.int_of_str Scenario.app
      request 1020 1020 = abort 403
  ∧ full_dispatch_request Scenario.loads Scenario.int_of_str
      Scenario.send_from_directory Scenario.app request 1020 1020
    = ([BeforeRequest (abort 403)], Ok (ErrorPage 403)).
Proof.
  intros request. split; [simpl; lia | ]. split; [simpl; lia | ].
  apply (invalid_span_denied Scenario.loads Scenario.int_of_str
           Scenario.send_from_directory Scenario.app request
           "token-1000-1040" 1020 (JStr "task1.log") 1000 1040 "task1.log").
  - reflexivity.
  - apply scenario_accepts. reflexivity.
  - by apply scenario_requests_file.
  - right. simpl. lia.
Defined.

(** The token issued at 1000 and expiring at 1030, at both bounds and beyond. *)
Lemma freshness_bounds_inclusive_witness :
  let request := Scenario.match_request (Scenario.get "/log/task1.log" "token-1000-1030") in
  let hook := validate_pre_signed_url Scenario.loads Scenario.int_of_str
                Scenario.app request in
  hook 1030 (1000 + max_request_age Scenario.app) = Ok tt
  ∧ hook 1000 (1030 - max_request_age Scenario.app) = Ok tt
  ∧ (∀ t, hook t (1000 + max_request_age Scenario.app + 1) = abort 403)
  ∧ (∀ t, hook t (1030 - max_request_age Scenario.app - 1) = abort 403).
Proof.
  intros request hook.
  apply (freshness_bounds_inclusive Scenario.loads Scenario.int_of_str
           Scenario.app request "token-1000-1030" 1030 1000 "task1.log"
           1000 1030).
  - reflexivity.
  - apply scenario_carries. reflexivity.
  - apply scenario_accepts. reflexivity.
  - apply scenario_accepts. reflexivity.
  - by apply scenario_requests_file.
  - simpl. lia.
Defined.

(** A textual [iat] is denied, with the response of a resource mismatch. *)
Lemma failed_decoding_opaque_403_witness :
  let textual := Scenario.match_request (Scenario.get "/log/task1.log" "token-iat-text") in
  let mismatch := Scenario.match_request (Scenario.get "/log/task2.log" "token-1000-1020") in
  Scenario.hook (Scenario.get "/log/task1.log" "token-iat-text") 1015 1015
  = abort 403
  ∧ full_dispatch_request Scenario.loads Scenario.int_of_str
      Scenario.send_from_directory Scenario.app mismatch 1015 1015
    = full_dispatch_request Scenario.loads Scenario.int_of_str
        Scenario.send_from_directory Scenario.app textual 1015 1015.
Proof.
  intros textual mismatch.
  destruct (failed_decoding_opaque_403 Scenario.loads Scenario.int_of_str
              Scenario.send_from_directory Scenario.app textual 1015 1015)
    as (Hhook & _ & Hsame).
  - apply (iat_not_integer _ _ _ _ _ "token-iat-text" (JStr "task1.log")
             {[ "alg" := JStr "HS512"; "iat" := JStr "soon";
                "exp" := JInt 1020 ]} (JStr "soon") ValueError);
      reflexivity.
  - split; [exact Hhook | ].
    apply (Hsame Scenario.app mismatch 1015 1015 "task2.log"
             (HTTPException 403)).
    + by apply scenario_requests_file.
    + reflexivity.
    + reflexivity.
Defined.

(** A file response at 1015 means that the hook returned normally. *)
Lemma responder_only_after_allow_witness :
  Scenario.hook (Scenario.get "/log/task1.log" "token-1000-1020") 1015 1015
  = Ok tt.
Proof.
  destruct (responder_only_after_allow Scenario.loads Scenario.int_of_str
              Scenario.send_from_directory Scenario.app
              (Scenario.match_request
                 (Scenario.get "/log/task1.log" "token-1000-1020"))
              1015 1015)
    as (_ & _ & rest & _ & _ & Hserved).
  eapply Hserved. reflexivity.
Defined.

(** The scenario on the table-driven signer and responder. *)
Lemma task1_scenario_witness :
  (∃ response,
      (Scenario.respond (Scenario.get "/log/task1.log" "token-1000-1020")
         1015 1015).2 = Ok response
      ∧ status_code response = 200)
  ∧ (∀ t now,
        (Scenario.respond (Scenario.get "/log/task2.log" "token-1000-1020")
           t now).2 = Ok (ErrorPage 403))
  ∧ (∀ t,
        (Scenario.respond (Scenario.get "/log/task1.log" "token-1000-1020")
           t 1060).2 = Ok (ErrorPage 403)).
Proof.
  apply (task1_scenario Scenario.loads Scenario.int_of_str
           Scenario.send_from_directory Scenario.match_request
           Scenario.app "token-1000-1020"
           {[ "Authorization" := "token-1000-1020" ]} 1015
           {| file_status := 200; file_mimetype := "application/json";
              file_data := "{}" |}).
  - reflexivity.
  - reflexivity.
  - reflexivity.
  - reflexivity.
  - apply scenario_carries. reflexivity.
  - apply scenario_accepts. reflexivity.
  - reflexivity.
  - reflexivity.
Defined.

(** A second request with one more header gets the same decision. *)
Lemma validate_depends_on_witness :
  let request := Scenario.match_request
                   (Scenario.get "/log/task1.log" "token-1000-1020") in
  let again :=
    {| headers := {[ "Authorization" := "token-1000-1020";
                     "User-Agent" := "python-requests" ]};
       endpoint := None;
       view_args := Some {[ "filename" := "task1.log"; "page" := "2" ]} |} in
  validate_pre_signed_url Scenario.loads Scenario.int_of_str Scenario.app
    request 1015 1015
  = validate_pre_signed_url Scenario.loads Scenario.int_of_str Scenario.app
      again 1015 1015.
Proof.
  intros request again.
  apply (validate_depends_on Scenario.loads Scenario.int_of_str
           Scenario.app request again 1015 1015).
  - reflexivity.
  - reflexivity.
Defined.

(** An accepted token on [/health], which matches no rule. *)
Lemma filename_lookup_partial_witness :
  let request := Scenario.match_request (Scenario.get "/health" "token-1000-1020") in
  validate_pre_signed_url Scenario.loads Scenario.int_of_str Scenario.app
    request 1015 1015 = Raise TypeError
  ∧ full_dispatch_request Scenario.loads Scenario.int_of_str
      Scenario.send_from_directory Scenario.app request 1015 1015
    = ([BeforeRequest (Raise TypeError)], Ok (ErrorPage 500)).
Proof.
  intros request.
  destruct (filename_lookup_partial Scenario.loads Scenario.int_of_str
              Scenario.send_from_directory Scenario.app request
              "token-1000-1020" 1015 1015 (JStr "task1.log") 1000 1020)
    as (Hunrouted & _).
  - reflexivity.
  - apply scenario_accepts. reflexivity.
  - apply Hunrouted. reflexivity.
Defined.

(** The launch for a configuration with port 8793. *)
Lemma serve_logs_binds_configured_port_witness :
  ∃ launch,
    serve_logs Scenario.conf_get Scenario.conf_getint Scenario.expanduser
    = Ok launch
    ∧ load (server launch)
      = {| max_request_age := 30;
           log_directory := "/home/airflow/airflow/logs";
           signer := {| secret_key := "secret"; algorithm_name := "HS512";
                        expires_in := 30; salt := "task-instance-logs" |} |}
    ∧ options (server launch)
      = [("bind", SStr ("0.0.0.0:" +:+ pretty 8793)); ("workers", SInt 2)]
    ∧ ∀ cfg,
        load_config (gmap string setting) Scenario.cfg_set Scenario.lower
          (server launch) cfg
        = (cfg ← Scenario.cfg_set cfg (Scenario.lower "bind")
                   (SStr ("0.0.0.0:" +:+ pretty 8793));
           cfg ← Scenario.cfg_set cfg (Scenario.lower "workers") (SInt 2);
           Ok cfg).
Proof.
  apply (serve_logs_binds_configured_port Scenario.conf_get
           Scenario.conf_getint Scenario.expanduser
           (gmap string setting) Scenario.cfg_set Scenario.lower).
  - reflexivity.
  - reflexivity.
Defined.

(** * Further properties of the module *)

(** ** What a normal return of the hook implies *)

Section HookInversion.

Variable loads : Signer → string → Z → result (json * gmap string json).
Variable int_of_str : string → option Z.

#[local] Abbreviation decode' := (decode loads int_of_str).
#[local] Abbreviation validate := (validate_pre_signed_url loads int_of_str).

Lemma decode_Ok_inv app request t p iat exp :
  decode' app request t = Ok (p, iat, exp) →
  ∃ token hdrs v w,
    presents request token
    ∧ loads (signer app) token t = Ok (p, hdrs)
    ∧ hdrs !! "iat" = Some v ∧ py_int int_of_str v = Ok iat
    ∧ hdrs !! "exp" = Some w ∧ py_int int_of_str w = Ok exp.
Proof.
  unfold decode, getitem, presents. intros H.
  destruct (headers request !! "Authorization") as [token | ] eqn:Hp;
    [ | discriminate].
  simpl in H.
  destruct (loads (signer app) token t) as [[p' hdrs] | e] eqn:Hl;
    [ | discriminate].
  simpl in H.
  destruct (hdrs !! "iat") as [v | ] eqn:Hi; [ | discriminate]. simpl in H.
  destruct (py_int int_of_str v) as [iat' | e] eqn:Hv; [ | discriminate].
  simpl in H.
  destruct (hdrs !! "exp") as [w | ] eqn:Hx; [ | discriminate]. simpl in H.
  destruct (py_int int_of_str w) as [exp' | e] eqn:Hw; [ | discriminate].
  injection H as -> -> ->. by exists token, hdrs, v, w.
Qed.

Lemma validate_Ok_inv app request t now :
  validate app request t now = Ok tt →
  ∃ path iat exp,
    decode' app request t = Ok (JStr path, iat, exp)
    ∧ requests_file request path
    ∧ Z.abs (now - iat) ≤ max_request_age app
    ∧ Z.abs (now - exp) ≤ max_request_age app
    ∧ iat ≤ exp ∧ exp - iat ≤ max_request_age app.
Proof.
  intros Hv.
  destruct (decode' app request t) as [[[p iat] exp] | e] eqn:Hd.
  - pose proof (validate_unrouted _ _ _ _ _ now _ _ _ Hd) as Hu.
    rewrite Hv in Hu.
    destruct (view_args request) as [args | ] eqn:Hargs; [ | discriminate].
    destruct (args !! "filename") as [path | ] eqn:Hf; [ | discriminate].
    assert (Hr : requests_file request path) by by exists args.
    rewrite (validate_decoded _ _ _ _ _ _ _ _ _ _ Hd Hr) in Hv.
    case_bool_decide as Hc; [ | discriminate].
    destruct Hc as (Hne & Hc). apply (ne_str_false int_of_str) in Hne as ->.
    exists path, iat, exp. split; [reflexivity | ]. split; [exact Hr | ].
    exact Hc.
  - unfold validate_pre_signed_url, try_except_Exception in Hv.
    rewrite Hd in Hv. by destruct (is_Exception e).
Qed.

(** X1.  The hook returns normally only for a request of the log route
    that presents a token which the signer accepts, whose payload is
    the file name of the URL as a string, whose [iat] and [exp] header
    fields [int] converts, and whose timestamps pass the four tests. *)
Theorem allowed_only_with_valid_token app request t now :
  validate app request t now = Ok tt →
  ∃ token path hdrs v w iat exp,
    presents request token
    ∧ loads (signer app) token t = Ok (JStr path, hdrs)
    ∧ requests_file request path
    ∧ hdrs !! "iat" = Some v ∧ py_int int_of_str v = Ok iat
    ∧ hdrs !! "exp" = Some w ∧ py_int int_of_str w = Ok exp
    ∧ Z.abs (now - iat) ≤ max_request_age app
    ∧ Z.abs (now - exp) ≤ max_request_age app
    ∧ iat ≤ exp ∧ exp - iat ≤ max_request_age app.
Proof.
  intros Hv.
  destruct (validate_Ok_inv _ _ _ _ Hv) as (path & iat & exp & Hd & Hr & Hc).
  destruct (decode_Ok_inv _ _ _ _ _ _ Hd)
    as (token & hdrs & v & w & Hp & Hl & Hi & Hvi & Hx & Hwx).
  exists token, path, hdrs, v, w, iat, exp. tauto.
Qed.

(** X4.  The times at which a request is allowed form an interval: a
    request allowed at two readings of the clock is allowed at every
    reading between them. *)
Theorem allow_window_convex app request t now1 now2 now :
  validate app request t now1 = Ok tt →
  validate app request t now2 = Ok tt →
  now1 ≤ now ≤ now2 →
  validate app request t now = Ok tt.
Proof.
  intros H1 H2 Hnow.
  destruct (validate_Ok_inv _ _ _ _ H1) as (path & iat & exp & Hd & Hr & C1).
  destruct (validate_Ok_inv _ _ _ _ H2) as (path' & iat' & exp' & Hd' & _ & C2).
  rewrite Hd in Hd'. injection Hd' as <- <- <-.
  rewrite (validate_decoded _ _ _ _ _ _ _ _ _ _ Hd Hr).
  rewrite bool_decide_eq_true_2; [reflexivity | ].
  split; [by apply ne_str_false | lia].
Qed.

(** X6.  With a negative [max_request_age] the hook never returns
    normally: no request is served. *)
Theorem negative_grace_denies_all app request t now :
  max_request_age app < 0 →
  validate app request t now ≠ Ok tt.
Proof.
  intros Hneg Hv.
  destruct (validate_Ok_inv _ _ _ _ Hv) as (path & iat & exp & _ & _ & C).
  lia.
Qed.

(** X5.  A token allows requests only within a span of
    [2 * max_age - (expires_at - issued_at)] seconds: two requests that
    present it and are allowed are at most that far apart. *)
Theorem replay_bound
    app request1 request2 token payload issued_at expires_at t1 t2 now1 now2 :
  presents request1 token → presents request2 token →
  carries loads app token payload issued_at expires_at →
  validate app request1 t1 now1 = Ok tt →
  validate app request2 t2 now2 = Ok tt →
  Z.abs (now1 - now2) ≤ 2 * max_request_age app - (expires_at - issued_at)
  ∧ Z.abs (now1 - now2) ≤ 2 * max_request_age app.
Proof.
  intros Hp1 Hp2 Hc H1 H2.
  assert (Hclaim : ∀ request t now,
    presents request token → validate app request t now = Ok tt →
    Z.abs (now - issued_at) ≤ max_request_age app
    ∧ Z.abs (now - expires_at) ≤ max_request_age app
    ∧ issued_at ≤ expires_at).
  { intros request t now Hp Hv.
    destruct (validate_Ok_inv _ _ _ _ Hv) as (path & iat & exp & Hd & _ & C).
    destruct (Hc t) as [Ha | (e & _ & Hl)].
    - rewrite (decode_accepts _ int_of_str _ _ _ _ _ _ _ Hp Ha) in Hd.
      injection Hd as _ <- <-. lia.
    - destruct (decode_Ok_inv _ _ _ _ _ _ Hd) as (token' & hdrs & ? & ? & Hp' & Hl' & _).
      unfold presents in Hp, Hp'. rewrite Hp in Hp'. injection Hp' as <-.
      rewrite Hl in Hl'. discriminate. }
  pose proof (Hclaim _ _ _ Hp1 H1). pose proof (Hclaim _ _ _ Hp2 H2). lia.
Qed.

(** X11.  The hook catches [Exception] only: when the signer raises
    something else, a [KeyboardInterrupt] for one, the hook lets it
    through and does not answer 403. *)
Theorem hook_propagates_non_Exception app request token t now e :
  presents request token →
  loads (signer app) token t = Raise e →
  is_Exception e = false →
  validate app request t now = Raise e
  ∧ validate app request t now ≠ abort 403.
Proof.
  intros Hp Hl He.
  assert (Hv : validate app request t now = Raise e).
  { unfold validate_pre_signed_url, try_except_Exception, decode, getitem.
    unfold presents in Hp. rewrite Hp. simpl. rewrite Hl. simpl.
    by rewrite He. }
  split; [exact Hv | ]. rewrite Hv. unfold abort. intros [= ->]. discriminate.
Qed.

End HookInversion.

(** ** The application as a whole *)

Lemma handle_user_exception_not_served e r :
  handle_user_exception e ≠ Ok (Served r).
Proof. destruct e; simpl; discriminate. Qed.

Lemma finalize_served rv r : finalize rv = Ok (Served r) → rv = Ok r.
Proof.
  destruct rv as [r' | e]; simpl; [by intros [= ->] | ].
  intros H. by apply handle_user_exception_not_served in H.
Qed.

Section Application.

Variable loads : Signer → string → Z → result (json * gmap string json).
Variable int_of_str : string → option Z.
Variable send_from_directory :
  string → string → string → bool → result FileResponse.

#[local] Abbreviation validate := (validate_pre_signed_url loads int_of_str).
#[local] Abbreviation full_dispatch :=
  (full_dispatch_request loads int_of_str send_from_directory).
#[local] Abbreviation the_app :=
  (flask_app loads int_of_str send_from_directory).

(** X2.  A file response is the responder's answer for the file that
    the view arguments name, read from the log directory, and the
    request carried a token that the signer accepts and whose payload
    is that very name. *)
Theorem served_file_is_signed_and_requested app request t now r :
  (full_dispatch app request t now).2 = Ok (Served r) →
  ∃ filename token hdrs,
    requests_file request filename
    ∧ presents request token
    ∧ loads (signer app) token t = Ok (JStr filename, hdrs)
    ∧ send_from_directory (log_directory app) filename
        "application/json" false = Ok r.
Proof.
  rewrite full_dispatch_unfold. intros H.
  destruct (validate app request t now) as [[] | e] eqn:Hv;
    [ | by apply handle_user_exception_not_served in H].
  destruct (validate_Ok_inv _ _ _ _ _ _ Hv)
    as (filename & iat & exp & Hd & Hr & _).
  destruct (decode_Ok_inv _ _ _ _ _ _ _ _ Hd)
    as (token & hdrs & _ & _ & Hp & Hl & _).
  exists filename, token, hdrs. repeat (split; [done | ]).
  destruct Hr as (args & Hargs & Hf).
  unfold Flask.dispatch_request in H.
  destruct (endpoint request) as [ep | ];
    [ | simpl in H; discriminate].
  destruct (flask_app_registrations loads int_of_str send_from_directory app)
    as (_ & _ & Hviews).
  rewrite Hviews in H. case_bool_decide; [ | simpl in H; discriminate].
  unfold serve_logs_view_kwargs, getitem_opt, getitem in H.
  rewrite Hargs, Hf in H. cbn [snd] in H. by apply finalize_served in H.
Qed.

(** X3.  A request that no rule matched never gets the 404 of the
    router: the hook runs first, and the answer is 403 when decoding
    raises an [Exception], 500 when the token decodes (the hook then
    raises [TypeError]); what is not an [Exception] leaves the
    application. *)
Theorem unmatched_url_403_or_500 app request t now :
  view_args request = None →
  full_dispatch app request t now =
    match decode loads int_of_str app request t with
    | Ok _ => ([BeforeRequest (Raise TypeError)], Ok (ErrorPage 500))
    | Raise e =>
        if is_Exception e
        then ([BeforeRequest (abort 403)], Ok (ErrorPage 403))
        else ([BeforeRequest (Raise e)], Raise e)
    end.
Proof.
  intros Hm.
  destruct (decode loads int_of_str app request t)
    as [[[p iat] exp] | e] eqn:Hd.
  - apply dispatch_raise.
    rewrite (validate_unrouted _ _ _ _ _ now _ _ _ Hd). by rewrite Hm.
  - destruct (is_Exception e) eqn:He.
    + apply dispatch_denied. by eapply validate_decode_raises.
    + assert (Hv : validate app request t now = Raise e).
      { unfold validate_pre_signed_url, try_except_Exception.
        by rewrite Hd, He. }
      rewrite (dispatch_raise _ _ send_from_directory _ _ _ _ _ Hv).
      by destruct e.
Qed.

End Application.

(** ** The application that [create_app] builds *)

Section CreatedApplication.

Variable loads : Signer → string → Z → result (json * gmap string json).
Variable int_of_str : string → option Z.
Variable send_from_directory :
  string → string → string → bool → result FileResponse.
Variable conf_get : string → string → result string.
Variable conf_getint : string → string → option Z → result Z.
Variable expanduser : string → string.

#[local] Abbreviation validate := (validate_pre_signed_url loads int_of_str).
#[local] Abbreviation full_dispatch :=
  (full_dispatch_request loads int_of_str send_from_directory).
#[local] Abbreviation create := (create_app conf_get conf_getint expanduser).

Lemma create_app_inv app :
  create = Ok app →
  ∃ grace base secret,
    conf_getint "webserver" "log_request_clock_grace" (Some 30) = Ok grace
    ∧ conf_get "logging" "BASE_LOG_FOLDER" = Ok base
    ∧ conf_get "webserver" "secret_key" = Ok secret
    ∧ app = {| max_request_age := grace;
               log_directory := expanduser base;
               signer := {| secret_key := secret;
                            algorithm_name := "HS512";
                            expires_in := grace;
                            salt := "task-instance-logs" |} |}.
Proof.
  unfold create_app.
  destruct (conf_getint "webserver" "log_request_clock_grace" (Some 30))
    as [grace | e]; [ | discriminate].
  simpl.
  destruct (conf_get "logging" "BASE_LOG_FOLDER") as [base | e];
    [ | discriminate].
  simpl.
  destruct (conf_get "webserver" "secret_key") as [secret | e];
    [ | discriminate].
  simpl. intros [= <-]. by exists grace, base, secret.
Qed.

(** X7.  [create_app] gives the signer a lifetime equal to the grace of
    the hook.  So a token with [exp = iat + expires_in], which the
    signer accepts and which names the requested file, is allowed
    exactly from its [iat] to its [exp]. *)
Theorem minted_token_window app request token t now resource issued_at :
  create = Ok app →
  presents request token →
  accepts loads app token t (JStr resource) issued_at
    (issued_at + expires_in (signer app)) →
  requests_file request resource →
  validate app request t now = Ok tt
  ↔ issued_at ≤ now ≤ issued_at + expires_in (signer app).
Proof.
  intros Happ Hp Ha Hr.
  destruct (create_app_inv _ Happ) as (grace & base & secret & _ & _ & _ & ->).
  simpl in *.
  rewrite (validate_decoded _ _ _ _ _ _ _ _ _ _
             (decode_accepts _ int_of_str _ _ _ _ _ _ _ Hp Ha) Hr).
  simpl. case_bool_decide as Hc.
  - split; [lia | reflexivity].
  - split; [discriminate | ]. intros Hnow. destruct Hc.
    split; [apply bool_decide_eq_false; intros Hne; by apply Hne | lia].
Qed.

(** X12.  The responder is only ever called on the expanded
    [BASE_LOG_FOLDER] of the configuration, with the file name of the
    view arguments of the request. *)
Theorem responder_reads_base_log_folder app request t now directory filename :
  create = Ok app →
  SendFromDirectory directory filename ∈ (full_dispatch app request t now).1 →
  (∃ base, conf_get "logging" "BASE_LOG_FOLDER" = Ok base
           ∧ directory = expanduser base)
  ∧ requests_file request filename.
Proof.
  intros Happ Hin.
  destruct (create_app_inv _ Happ) as (grace & base & secret & _ & Hb & _ & Heq).
  destruct (dispatch_trace loads int_of_str send_from_directory
              app request t now) as (rest & Htrace & Hdenied & Hallowed).
  rewrite Htrace in Hin.
  apply elem_of_cons in Hin as [Hin | Hin]; [discriminate | ].
  destruct (validate app request t now) as [[] | e] eqn:Hv.
  - rewrite Hallowed in Hin by reflexivity.
    apply dispatch_request_trace in Hin as (-> & Hr).
    split; [ | exact Hr]. exists base. split; [exact Hb | ]. by rewrite Heq.
  - rewrite Hdenied in Hin by congruence. by apply elem_of_nil in Hin.
Qed.

End CreatedApplication.

(** ** The further properties on the test double *)

Lemma scenario_accepts_any app token t resource iat exp :
  Scenario.loads (signer app) token t = Ok (Scenario.claim resource iat exp) →
  accepts Scenario.loads app token t (JStr resource) iat exp.
Proof.
  intros H. exists (Scenario.claim resource iat exp).2.
  split; [exact H | ]. unfold Scenario.claim. simpl.
  split; by simplify_map_eq.
Defined.

(** The request allowed at 1015 shows its token, file name and times. *)
Lemma allowed_only_with_valid_token_witness :
  let request := Scenario.match_request (Scenario.get "/log/task1.log" "token-1000-1020") in
  ∃ token path hdrs v w iat exp,
    presents request token
    ∧ Scenario.loads (signer Scenario.app) token 1015 = Ok (JStr path, hdrs)
    ∧ requests_file request path
    ∧ hdrs !! "iat" = Some v ∧ py_int Scenario.int_of_str v = Ok iat
    ∧ hdrs !! "exp" = Some w ∧ py_int Scenario.int_of_str w = Ok exp
    ∧ Z.abs (1015 - iat) ≤ max_request_age Scenario.app
    ∧ Z.abs (1015 - exp) ≤ max_request_age Scenario.app
    ∧ iat ≤ exp ∧ exp - iat ≤ max_request_age Scenario.app.
Proof.
  intros request.
  apply (allowed_only_with_valid_token Scenario.loads Scenario.int_of_str
           Scenario.app request 1015 1015).
  reflexivity.
Defined.

(** The 200 for [/log/task1.log] is the responder's, for that file. *)
Lemma served_file_is_signed_and_requested_witness :
  let request := Scenario.match_request
                   (Scenario.get "/log/task1.log" "token-1000-1020") in
  ∃ filename token hdrs,
    requests_file request filename
    ∧ presents request token
    ∧ Scenario.loads (signer Scenario.app) token 1015 = Ok (JStr filename, hdrs)
    ∧ Scenario.send_from_directory (log_directory Scenario.app) filename
        "application/json" false
      = Ok {| file_status := 200; file_mimetype := "application/json";
              file_data := "{}" |}.
Proof.
  intros request.
  apply (served_file_is_signed_and_requested Scenario.loads
           Scenario.int_of_str Scenario.send_from_directory Scenario.app
           request 1015 1015).
  reflexivity.
Defined.

(** [/health] with a good token is a 500, without a token a 403. *)
Lemma unmatched_url_403_or_500_witness :
  Scenario.respond (Scenario.get "/health" "token-1000-1020") 1015 1015
  = ([BeforeRequest (Raise TypeError)], Ok (ErrorPage 500))
  ∧ Scenario.respond (Scenario.anonymous "/health") 1015 1015
    = ([BeforeRequest (abort 403)], Ok (ErrorPage 403)).
Proof.
  split.
  - apply (unmatched_url_403_or_500 Scenario.loads Scenario.int_of_str
             Scenario.send_from_directory Scenario.app
             (Scenario.match_request
                (Scenario.get "/health" "token-1000-1020")) 1015 1015).
    reflexivity.
  - apply (unmatched_url_403_or_500 Scenario.loads Scenario.int_of_str
             Scenario.send_from_directory Scenario.app
             (Scenario.match_request (Scenario.anonymous "/health"))
             1015 1015).
    reflexivity.
Defined.

(** Allowed at 990 and at 1020, hence at 1000. *)
Lemma allow_window_convex_witness :
  validate_pre_signed_url Scenario.loads Scenario.int_of_str Scenario.app
    (Scenario.match_request (Scenario.get "/log/task1.log" "token-1000-1020")) 990 1000
  = Ok tt.
Proof.
  apply (allow_window_convex Scenario.loads Scenario.int_of_str Scenario.app
           _ 990 990 1020 1000).
  - reflexivity.
  - reflexivity.
  - lia.
Defined.

(** Requests allowed at 990 and at 1020 are 30 seconds apart, within
    [2 * 30 - 20]. *)
Lemma replay_bound_witness :
  Z.abs (990 - 1020)
  ≤ 2 * max_request_age Scenario.app - (1020 - 1000)
  ∧ Z.abs (990 - 1020) ≤ 2 * max_request_age Scenario.app.
Proof.
  apply (replay_bound Scenario.loads Scenario.int_of_str Scenario.app
           (Scenario.match_request (Scenario.get "/log/task1.log" "token-1000-1020"))
           (Scenario.match_request (Scenario.get "/log/task1.log" "token-1000-1020"))
           "token-1000-1020" (JStr "task1.log") 1000 1020 990 1020 990 1020).
  - reflexivity.
  - reflexivity.
  - apply scenario_carries. reflexivity.
  - reflexivity.
  - reflexivity.
Defined.

(** With a grace of -1 the token that is otherwise allowed at 1015 is
    not. *)
Lemma negative_grace_denies_all_witness :
  validate_pre_signed_url Scenario.loads Scenario.int_of_str
    {| max_request_age := -1; log_directory := "/var/log/airflow";
       signer := signer Scenario.app |}
    (Scenario.match_request (Scenario.get "/log/task1.log" "token-1000-1020"))
    1015 1015
  ≠ Ok tt.
Proof.
  apply (negative_grace_denies_all Scenario.loads Scenario.int_of_str).
  simpl. lia.
Defined.

(** A signer interrupted from the keyboard. *)
Lemma hook_propagates_non_Exception_witness :
  let interrupted (s : Signer) (token : string) (t : Z)
      : result (json * gmap string json) := Raise KeyboardInterrupt in
  let request := Scenario.match_request (Scenario.get "/log/task1.log" "token-1000-1020") in
  validate_pre_signed_url interrupted Scenario.int_of_str Scenario.app
    request 1015 1015 = Raise KeyboardInterrupt
  ∧ validate_pre_signed_url interrupted Scenario.int_of_str Scenario.app
      request 1015 1015 ≠ abort 403.
Proof.
  intros interrupted request.
  apply (hook_propagates_non_Exception interrupted Scenario.int_of_str
           Scenario.app request "token-1000-1020" 1015 1015 KeyboardInterrupt).
  - reflexivity.
  - reflexivity.
  - reflexivity.
Defined.

(** The application of the sample configuration allows the token minted
    at 1000 for 30 seconds at 1010, and not at 1031. *)
Lemma minted_token_window_witness :
  let app := {| max_request_age := 30;
                log_directory := "/home/airflow/airflow/logs";
                signer := {| secret_key := "secret"; algorithm_name := "HS512";
                             expires_in := 30;
                             salt := "task-instance-logs" |} |} in
  let request := Scenario.match_request (Scenario.get "/log/task1.log" "token-1000-1030") in
  (validate_pre_signed_url Scenario.loads Scenario.int_of_str app request
     1010 1010 = Ok tt
   ↔ 1000 ≤ 1010 ≤ 1000 + expires_in (signer app))
  ∧ (validate_pre_signed_url Scenario.loads Scenario.int_of_str app request
       1010 1031 = Ok tt
     ↔ 1000 ≤ 1031 ≤ 1000 + expires_in (signer app)).
Proof.
  intros app request.
  split;
    apply (minted_token_window Scenario.loads Scenario.int_of_str
             Scenario.conf_get Scenario.conf_getint Scenario.expanduser
             app request "token-1000-1030" 1010 _ "task1.log" 1000);
    try reflexivity;
    try (apply scenario_accepts_any; reflexivity);
    by apply scenario_requests_file.
Defined.

(** The file of the scenario is read from the expanded base folder. *)
Lemma responder_reads_base_log_folder_witness :
  (∃ base, Scenario.conf_get "logging" "BASE_LOG_FOLDER" = Ok base
           ∧ "/home/airflow/airflow/logs" = Scenario.expanduser base)
  ∧ requests_file
      (Scenario.match_request
         (Scenario.get "/log/task1.log" "token-1000-1020")) "task1.log".
Proof.
  apply (responder_reads_base_log_folder Scenario.loads Scenario.int_of_str
           Scenario.send_from_directory Scenario.conf_get
           Scenario.conf_getint Scenario.expanduser
           {| max_request_age := 30;
              log_directory := "/home/airflow/airflow/logs";
              signer := {| secret_key := "secret"; algorithm_name := "HS512";
                           expires_in := 30;
                           salt := "task-instance-logs" |} |}
           (Scenario.match_request
              (Scenario.get "/log/task1.log" "token-1000-1020")) 1015 1015).
  - reflexivity.
  - change (SendFromDirectory "/home/airflow/airflow/logs" "task1.log"
            ∈ [BeforeRequest (Ok tt);
               SendFromDirectory "/home/airflow/airflow/logs" "task1.log"]).
    apply list_elem_of_further, list_elem_of_here.
Defined.

(** The token issued at 1000 and expiring at 1020 is denied at 1031. *)
Lemma accepted_token_denied_outside_window_witness :
  validate_pre_signed_url Scenario.loads Scenario.int_of_str Scenario.app
    (Scenario.match_request (Scenario.get "/log/task1.log" "token-1000-1020"))
    1015 1031
  = abort 403.
Proof.
  apply (accepted_token_denied_outside_window Scenario.loads
           Scenario.int_of_str Scenario.app _ "token-1000-1020" 1015 1031
           "task1.log" 1000 1020).
  - reflexivity.
  - apply scenario_accepts. reflexivity.
  - by apply scenario_requests_file.
  - right. simpl. lia.
Defined.

(** The launch of the sample configuration, read backwards. *)
Lemma serve_logs_inv_witness :
  let launch :=
    {| proctitle := "airflow serve-logs";
       server :=
         {| options := [("bind", SStr "0.0.0.0:8793"); ("workers", SInt 2)];
            application :=
              {| max_request_age := 30;
                 log_directory := "/home/airflow/airflow/logs";
                 signer := {| secret_key := "secret";
                              algorithm_name := "HS512";
                              expires_in := 30;
                              salt := "task-instance-logs" |} |} |} |} in
  ∃ port,
    Scenario.conf_getint "celery" "WORKER_LOG_SERVER_PORT" None = Ok port
    ∧ create_app Scenario.conf_get Scenario.conf_getint Scenario.expanduser
      = Ok (load (server launch))
    ∧ proctitle launch = "airflow serve-logs"
    ∧ options (server launch)
      = [("bind", SStr ("0.0.0.0:" +:+ pretty port)); ("workers", SInt 2)]
    ∧ ∀ cfg,
        load_config (gmap string setting) Scenario.cfg_set Scenario.lower
          (server launch) cfg
        = (cfg ← Scenario.cfg_set cfg (Scenario.lower "bind")
                   (SStr ("0.0.0.0:" +:+ pretty port));
           cfg ← Scenario.cfg_set cfg (Scenario.lower "workers") (SInt 2);
           Ok cfg).
Proof.
  intros launch.
  apply (serve_logs_inv Scenario.conf_get Scenario.conf_getint
           Scenario.expanduser (gmap string setting) Scenario.cfg_set
           Scenario.lower launch).
  reflexivity.
Defined.
